(** * go-serial, OS X back end: option translation and the open sequence

    A shallow embedding of [serial/open_darwin.go]: the [termios] record,
    [convertOptions], [setTermios] and [openInternal], with the operating
    system seen through the sequence of calls the code makes. *)

From Stdlib Require Import ZArith Lia.
From stdpp Require Import base decidable list strings.

Local Open Scope Z_scope.

(** ** Machine integers

    The file targets 64-bit OS X: [uintptr] and [uint64] are 64 bits wide.
    The code is written for the Go of [os.Error], before Go 1, whose [int]
    is 32 bits wide on every platform.  A Go conversion [T(x)] keeps the
    low bits of [x]. *)

Definition wrap64 (x : Z) : Z := x mod 2 ^ 64.

(* uintptr(x) *)
Definition uintptr (x : Z) : Z := wrap64 x.

(* int(x): the low 32 bits read as a signed number *)
Definition int (x : Z) : Z := (x + 2 ^ 31) mod 2 ^ 32 - 2 ^ 31.

(** termios types: [cc_t] is a byte, [speed_t] and [tcflag_t] are uint64.
    Each name below is the conversion to that type. *)
Definition cc_t (x : Z) : Z := x mod 2 ^ 8.
Definition speed_t (x : Z) : Z := wrap64 x.
Definition tcflag_t (x : Z) : Z := wrap64 x.

(** ** sys/termios.h *)

Definition CS5 : Z := 0x00000000.
Definition CS6 : Z := 0x00000100.
Definition CS7 : Z := 0x00000200.
Definition CS8 : Z := 0x00000300.
Definition CLOCAL : Z := 0x00008000.
Definition CREAD : Z := 0x00000800.
Definition IGNPAR : Z := 0x00000004.

Definition NCCS : nat := 20.

Definition VMIN : Z := tcflag_t 16.
Definition VTIME : Z := tcflag_t 17.

(** ** sys/ttycom.h *)

Definition TIOCGETA : Z := 1078490131.
Definition TIOCSETA : Z := 2152231956.

(** ** sys/termios.h: the attribute record *)

Record termios : Type := Termios {
  c_iflag : Z;
  c_oflag : Z;
  c_cflag : Z;
  c_lflag : Z;
  c_cc : list Z;          (* [NCCS]cc_t *)
  c_ispeed : Z;
  c_ospeed : Z
}.

(* [var result termios]: every field zero. *)
Definition zero_termios : termios :=
  {| c_iflag := 0; c_oflag := 0; c_cflag := 0; c_lflag := 0;
     c_cc := replicate NCCS 0; c_ispeed := 0; c_ospeed := 0 |}.

(* Field assignments. *)
Definition set_c_iflag (v : Z) (t : termios) : termios :=
  {| c_iflag := v; c_oflag := c_oflag t; c_cflag := c_cflag t;
     c_lflag := c_lflag t; c_cc := c_cc t;
     c_ispeed := c_ispeed t; c_ospeed := c_ospeed t |}.

Definition set_c_cflag (v : Z) (t : termios) : termios :=
  {| c_iflag := c_iflag t; c_oflag := c_oflag t; c_cflag := v;
     c_lflag := c_lflag t; c_cc := c_cc t;
     c_ispeed := c_ispeed t; c_ospeed := c_ospeed t |}.

Definition set_c_ispeed (v : Z) (t : termios) : termios :=
  {| c_iflag := c_iflag t; c_oflag := c_oflag t; c_cflag := c_cflag t;
     c_lflag := c_lflag t; c_cc := c_cc t;
     c_ispeed := v; c_ospeed := c_ospeed t |}.

Definition set_c_ospeed (v : Z) (t : termios) : termios :=
  {| c_iflag := c_iflag t; c_oflag := c_oflag t; c_cflag := c_cflag t;
     c_lflag := c_lflag t; c_cc := c_cc t;
     c_ispeed := c_ispeed t; c_ospeed := v |}.

(* [t.c_cc[i] = v]; the indices used by the code are constants below NCCS. *)
Definition set_c_cc (i : Z) (v : Z) (t : termios) : termios :=
  {| c_iflag := c_iflag t; c_oflag := c_oflag t; c_cflag := c_cflag t;
     c_lflag := c_lflag t; c_cc := <[Z.to_nat i := cc_t v]> (c_cc t);
     c_ispeed := c_ispeed t; c_ospeed := c_ospeed t |}.

(** ** Errors (package os) *)

Module os.

Inductive Error : Type :=
| errorString (s : string)                   (* made by os.NewError *)
| SyscallError (syscall : string) (errno : Z)
| PathError (op path : string) (errno : Z).  (* what os.OpenFile reports *)

Definition NewError (s : string) : Error := errorString s.

(* nil for errno 0, a SyscallError otherwise *)
Definition NewSyscallError (syscall : string) (errno : Z) : option Error :=
  if errno =? 0 then None else Some (SyscallError syscall errno).

Definition O_RDWR : Z := 0x2.
Definition O_NONBLOCK : Z := 0x4.
Definition O_NOCTTY : Z := 0x20000.

End os.

(** ** The caller's configuration

    [OpenOptions] is declared in the portable part of the package; the
    translation reads the three fields below.  The numeric fields hold
    whatever integer the caller supplied. *)

Record OpenOptions : Type := {
  PortName : string;
  BaudRate : Z;
  DataBits : Z
}.

(** ** convertOptions *)

Definition convertOptions (options : OpenOptions)
  : option termios * option os.Error :=
  let result := zero_termios in
  (* Ignore modem status lines. *)
  let result := set_c_cflag (Z.lor (c_cflag result) CLOCAL) result in
  (* Enable receiving data. *)
  let result := set_c_cflag (Z.lor (c_cflag result) CREAD) result in
  (* Ignore parity errors. *)
  let result := set_c_iflag (Z.lor (c_iflag result) IGNPAR) result in
  (* Turn off the inter-character timer. *)
  let result := set_c_cc VTIME 0 result in
  (* Make reads block until one byte is received. *)
  let result := set_c_cc VMIN 1 result in
  (* Baud rate *)
  match BaudRate options with
  | 50 | 75 | 110 | 134 | 150 | 200 | 300 | 600 | 1200 | 1800 | 2400
  | 4800 | 7200 | 9600 | 14400 | 19200 | 28800 | 38400 | 57600 | 76800
  | 115200 | 230400 =>
      let result := set_c_ispeed (speed_t (BaudRate options)) result in
      let result := set_c_ospeed (speed_t (BaudRate options)) result in
      (* Data bits *)
      match DataBits options with
      | 5 => (Some (set_c_cflag (Z.lor (c_cflag result) CS5) result), None)
      | 6 => (Some (set_c_cflag (Z.lor (c_cflag result) CS6) result), None)
      | 7 => (Some (set_c_cflag (Z.lor (c_cflag result) CS7) result), None)
      | 8 => (Some (set_c_cflag (Z.lor (c_cflag result) CS8) result), None)
      | _ => (None, Some (os.NewError "Invalid setting for DataBits."))
      end
  | _ => (None, Some (os.NewError "Invalid setting for BaudRate."))
  end.

(** The rates and sizes the two switches accept. *)
Definition baud_rates : list Z :=
  [50; 75; 110; 134; 150; 200; 300; 600; 1200; 1800; 2400; 4800; 7200;
   9600; 14400; 19200; 28800; 38400; 57600; 76800; 115200; 230400].

Definition data_sizes : list Z := [5; 6; 7; 8].

(* The size pattern selected by a DataBits value of the second switch. *)
Definition size_flag (bits : Z) : Z :=
  match bits with
  | 5 => CS5
  | 6 => CS6
  | 7 => CS7
  | _ => CS8
  end.

(* The record the translation builds for an accepted configuration. *)
Definition translated (rate bits : Z) : termios :=
  {| c_iflag := IGNPAR;
     c_oflag := 0;
     c_cflag := Z.lor (Z.lor CLOCAL CREAD) (size_flag bits);
     c_lflag := 0;
     c_cc := <[16%nat := 1]> (<[17%nat := 0]> (replicate NCCS 0));
     c_ispeed := rate;
     c_ospeed := rate |}.

(* The bits of the control flags that hold the character size: the union of
   the four size patterns. *)
Definition size_bits (cflag : Z) : Z :=
  Z.land cflag (Z.lor (Z.lor CS5 CS6) (Z.lor CS7 CS8)).

(* [flags] has every bit of [mask] set. *)
Definition has_flags (flags mask : Z) : Prop := Z.land flags mask = mask.

(** ** The operating-system boundary

    The code reaches the system through [os.OpenFile] and
    [syscall.Syscall].  A run is modelled by the list of calls made so far;
    what the system answers to a call may depend on that history. *)

(* The third argument of a system call: a plain word, or the address of an
   attribute record (the model passes the record itself). *)
Inductive sysarg : Type :=
| Word (w : Z)
| Pointer (src : option termios).   (* nil, or a record *)

Inductive call : Type :=
| OpenFile (name : string) (flag perm : Z)
| Syscall (trap a1 a2 : Z) (a3 : sysarg)
| Close (fd : Z).

Record System : Type := {
  (* descriptor of the opened file, or the error *)
  open_result : list call -> string -> Z -> Z -> Z + os.Error;
  (* r1, r2 and errno of a system call *)
  syscall_result : list call -> Z -> Z -> Z -> sysarg -> Z * Z * Z
}.

(* Computations that make calls: the history goes in, the result and the
   extended history come out. *)
Definition IO (A : Type) : Type := list call -> A * list call.

Definition ret {A : Type} (a : A) : IO A := fun h => (a, h).

Definition bind {A B : Type} (m : IO A) (k : A -> IO B) : IO B :=
  fun h => let (a, h') := m h in k a h'.

Notation "x <- m ; k" := (bind m (fun x => k))
  (at level 20, m at level 100, k at level 200, only parsing).
Notation "' p <- m ; k" := (bind m (fun x => let 'p := x in k))
  (at level 20, p pattern, m at level 100, k at level 200, only parsing).

(* os.OpenFile: a *File (here its descriptor, what file.Fd() gives) or an
   error. *)
Definition os_OpenFile (sys : System) (name : string) (flag perm : Z)
  : IO (Z + os.Error) :=
  fun h => (open_result sys h name flag perm, h ++ [OpenFile name flag perm]).

Module syscall.

(* Darwin numbers. *)
Definition SYS_IOCTL : Z := 54.
Definition SYS_FCNTL : Z := 92.
Definition F_SETFL : Z := 4.

(* func Syscall(trap, a1, a2, a3 uintptr) (r1, r2, err uintptr) *)
Definition Syscall (sys : System) (trap a1 a2 : Z) (a3 : sysarg)
  : IO (Z * Z * Z) :=
  fun h =>
    let '(r1, r2, errno) := syscall_result sys h trap a1 a2 a3 in
    ((uintptr r1, uintptr r2, uintptr errno),
     h ++ [Syscall trap a1 a2 a3]).

End syscall.

(** ** setTermios *)

Definition setTermios (sys : System) (fd : Z) (src : option termios)
  : IO (option os.Error) :=
  (* Make the ioctl syscall that sets the termios struct. *)
  '(r1, _, errno) <-
    syscall.Syscall sys syscall.SYS_IOCTL (uintptr fd) (uintptr TIOCSETA)
                    (Pointer src);
  (* Did the syscall return an error? *)
  match os.NewSyscallError "SYS_IOCTL" (int errno) with
  | Some err => ret (Some err)
  | None =>
      (* Just in case, check the return value as well. *)
      if negb (r1 =? 0)
      then ret (Some (os.NewError "Unknown error from SYS_IOCTL."))
      else ret None
  end.

(** ** openInternal

    The handle returned on success is the opened file, given by its
    descriptor. *)

Definition openInternal (sys : System) (options : OpenOptions)
  : IO (option Z * option os.Error) :=
  (* Open the serial port in non-blocking mode. *)
  opened <-
    os_OpenFile sys (PortName options)
                (Z.lor (Z.lor os.O_RDWR os.O_NOCTTY) os.O_NONBLOCK) 384 (* 0600 *);
  match opened with
  | inr err => ret (None, Some err)
  | inl file =>
      (* We want to do blocking I/O, so clear the non-blocking flag. *)
      '(r1, _, errno) <-
        syscall.Syscall sys syscall.SYS_FCNTL (uintptr file)
                        (uintptr syscall.F_SETFL) (Word (uintptr 0));
      match os.NewSyscallError "SYS_IOCTL" (int errno) with
      | Some err => ret (None, Some err)
      | None =>
          if negb (r1 =? 0)
          then ret (None, Some (os.NewError "Unknown error from SYS_FCNTL."))
          else
            (* Set appropriate options. *)
            let '(terminalOptions, err) := convertOptions options in
            match err with
            | Some err => ret (None, Some err)
            | None =>
                err <- setTermios sys file terminalOptions;
                match err with
                | Some err => ret (None, Some err)
                | None => ret (Some file, None)   (* We're done. *)
                end
            end
      end
  end.

(** The three calls of the open sequence, as they appear in a history. *)

Definition open_call (options : OpenOptions) : call :=
  OpenFile (PortName options)
           (Z.lor (Z.lor os.O_RDWR os.O_NOCTTY) os.O_NONBLOCK) 384.

Definition fcntl_call (file : Z) : call :=
  Syscall syscall.SYS_FCNTL (uintptr file) (uintptr syscall.F_SETFL)
          (Word (uintptr 0)).

Definition ioctl_call (file : Z) (src : option termios) : call :=
  Syscall syscall.SYS_IOCTL (uintptr file) (uintptr TIOCSETA) (Pointer src).

(* A call that sets terminal attributes, on any descriptor. *)
Definition is_set_attributes (c : call) : Prop :=
  match c with
  | Syscall trap _ a2 _ => trap = syscall.SYS_IOCTL /\ a2 = uintptr TIOCSETA
  | _ => False
  end.

(* A call that closes a descriptor: the Close of a file, or the close
   system call (number 6 on Darwin). *)
Definition closes_descriptor (c : call) : Prop :=
  match c with
  | Close _ => True
  | Syscall trap _ _ _ => trap = 6
  | OpenFile _ _ _ => False
  end.

(* What the code takes as the success of a system call: an errno that is
   zero once converted to int, and a first return value of zero. *)
Definition reports_success (answer : Z * Z * Z) : Prop :=
  let '(r1, _, errno) := answer in int errno = 0 /\ r1 = 0.

(** Sample systems.  In each the device opens as descriptor 3. *)

(* Every call succeeds. *)
Definition obliging : System :=
  {| open_result := fun _ _ _ _ => inl 3;
     syscall_result := fun _ _ _ _ _ => (0, 0, 0) |}.

(* fcntl fails with EBADF (9) and returns -1; ioctl succeeds. *)
Definition fcntl_refused : System :=
  {| open_result := fun _ _ _ _ => inl 3;
     syscall_result := fun _ trap _ _ _ =>
                         if trap =? syscall.SYS_FCNTL then (-1, 0, 9)
                         else (0, 0, 0) |}.

(* ioctl fails with ENOTTY (25) and returns -1; fcntl succeeds. *)
Definition ioctl_refused : System :=
  {| open_result := fun _ _ _ _ => inl 3;
     syscall_result := fun _ trap _ _ _ =>
                         if trap =? syscall.SYS_IOCTL then (-1, 0, 25)
                         else (0, 0, 0) |}.

Definition usb_9600_8 : OpenOptions :=
  {| PortName := "/dev/tty.usbserial"; BaudRate := 9600; DataBits := 8 |}.

Definition usb_9601_8 : OpenOptions :=
  {| PortName := "/dev/tty.usbserial"; BaudRate := 9601; DataBits := 8 |}.

Definition usb_9601_9 : OpenOptions :=
  {| PortName := "/dev/tty.usbserial"; BaudRate := 9601; DataBits := 9 |}.

(* The device cannot be opened: ENOENT (2). *)
Definition open_refused : System :=
  {| open_result := fun _ name _ _ => inr (os.PathError "open" name 2);
     syscall_result := fun _ _ _ _ _ => (0, 0, 0) |}.

(* ioctl fails with EBADF (9), the errno [fcntl_refused] gives to fcntl. *)
Definition ioctl_ebadf : System :=
  {| open_result := fun _ _ _ _ => inl 3;
     syscall_result := fun _ trap _ _ _ =>
                         if trap =? syscall.SYS_IOCTL then (-1, 0, 9)
                         else (0, 0, 0) |}.

(* ioctl reports no errno but returns 1. *)
Definition ioctl_odd : System :=
  {| open_result := fun _ _ _ _ => inl 3;
     syscall_result := fun _ trap _ _ _ =>
                         if trap =? syscall.SYS_IOCTL then (1, 0, 0)
                         else (0, 0, 0) |}.

Definition modem_50_5 : OpenOptions :=
  {| PortName := "/dev/cu.modem"; BaudRate := 50; DataBits := 5 |}.

(** What the system answers to the three calls of a run started at history
    [h]: to the open, to the flag call on descriptor [file], and to the
    attribute call carrying the record [t]. *)

Definition open_answer (sys : System) (options : OpenOptions) (h : list call)
  : Z + os.Error :=
  open_result sys h (PortName options)
              (Z.lor (Z.lor os.O_RDWR os.O_NOCTTY) os.O_NONBLOCK) 384.

Definition fcntl_answer (sys : System) (options : OpenOptions)
    (h : list call) (file : Z) : Z * Z * Z :=
  (syscall.Syscall sys syscall.SYS_FCNTL (uintptr file)
                   (uintptr syscall.F_SETFL) (Word (uintptr 0))
                   (h ++ [open_call options])).1.

Definition ioctl_answer (sys : System) (options : OpenOptions)
    (h : list call) (file : Z) (t : termios) : Z * Z * Z :=
  (syscall.Syscall sys syscall.SYS_IOCTL (uintptr file) (uintptr TIOCSETA)
                   (Pointer (Some t))
                   (h ++ [open_call options; fcntl_call file])).1.

(** * Properties of the translation *)

(* Walks down the binary decision tree of a switch over integer
   constants. *)
Ltac split_switch :=
  repeat match goal with
         | |- context [match ?p with xI _ => _ | xO _ => _ | xH => _ end] =>
             is_var p; destruct p; cbv beta iota
         end.

Ltac by_computation := apply (bool_decide_unpack _); vm_compute; exact I.

Section Translation.

Implicit Types (options : OpenOptions) (t : termios).

Lemma baud_rates_cases (b : Z) :
  b ∈ baud_rates ->
  b = 50 \/ b = 75 \/ b = 110 \/ b = 134 \/ b = 150 \/ b = 200 \/ b = 300 \/
  b = 600 \/ b = 1200 \/ b = 1800 \/ b = 2400 \/ b = 4800 \/ b = 7200 \/
  b = 9600 \/ b = 14400 \/ b = 19200 \/ b = 28800 \/ b = 38400 \/
  b = 57600 \/ b = 76800 \/ b = 115200 \/ b = 230400.
Proof.
  unfold baud_rates. rewrite !elem_of_cons, elem_of_nil. tauto.
Qed.

Lemma data_sizes_cases (d : Z) :
  d ∈ data_sizes -> d = 5 \/ d = 6 \/ d = 7 \/ d = 8.
Proof.
  unfold data_sizes. rewrite !elem_of_cons, elem_of_nil. tauto.
Qed.

Lemma convertOptions_bad_rate options :
  BaudRate options ∉ baud_rates ->
  convertOptions options
  = (None, Some (os.NewError "Invalid setting for BaudRate.")).
Proof.
  intros Hb. unfold convertOptions.
  destruct (BaudRate options) as [|p|p]; try reflexivity.
  split_switch; try reflexivity.
  all: exfalso; apply Hb; by_computation.
Qed.

Lemma convertOptions_bad_size options :
  BaudRate options ∈ baud_rates ->
  DataBits options ∉ data_sizes ->
  convertOptions options
  = (None, Some (os.NewError "Invalid setting for DataBits.")).
Proof.
  intros Hb Hd. unfold convertOptions.
  apply baud_rates_cases in Hb.
  repeat (destruct Hb as [Hb | Hb]); rewrite Hb; cbv beta iota zeta.
  all: destruct (DataBits options) as [|p|p]; try reflexivity.
  all: split_switch; try reflexivity.
  all: exfalso; apply Hd; by_computation.
Qed.

Lemma convertOptions_good options :
  BaudRate options ∈ baud_rates ->
  DataBits options ∈ data_sizes ->
  convertOptions options
  = (Some (translated (BaudRate options) (DataBits options)), None).
Proof.
  intros Hb Hd. unfold convertOptions.
  apply baud_rates_cases in Hb. apply data_sizes_cases in Hd.
  repeat (destruct Hb as [Hb | Hb]); rewrite Hb;
    repeat (destruct Hd as [Hd | Hd]); rewrite Hd; reflexivity.
Qed.

(* What an accepted configuration looks like. *)
Lemma convertOptions_accepted options t :
  (convertOptions options).1 = Some t ->
  BaudRate options ∈ baud_rates /\ DataBits options ∈ data_sizes /\
  convertOptions options = (Some t, None) /\
  t = translated (BaudRate options) (DataBits options).
Proof.
  intros Ht.
  destruct (decide (BaudRate options ∈ baud_rates)) as [Hb | Hb].
  - destruct (decide (DataBits options ∈ data_sizes)) as [Hd | Hd].
    + rewrite (convertOptions_good _ Hb Hd) in Ht |- *.
      simpl in Ht. injection Ht as <-. auto.
    + rewrite (convertOptions_bad_size _ Hb Hd) in Ht. discriminate.
  - rewrite (convertOptions_bad_rate _ Hb) in Ht. discriminate.
Qed.

End Translation.

Section TranslationClaims.

Implicit Types (options : OpenOptions) (t : termios).

Lemma translated_cc_length rate bits :
  length (c_cc (translated rate bits)) = NCCS.
Proof. reflexivity. Qed.

Lemma translated_cc_other rate bits (i : nat) :
  (i < NCCS)%nat -> i <> Z.to_nat VMIN -> i <> Z.to_nat VTIME ->
  c_cc (translated rate bits) !! i = Some 0.
Proof.
  intros Hi Hmin Htime.
  change (c_cc (translated rate bits))
    with (<[16%nat := 1]> (<[17%nat := 0]> (replicate NCCS 0))).
  rewrite list_lookup_insert_ne by (intros <-; apply Hmin; reflexivity).
  rewrite list_lookup_insert_ne by (intros <-; apply Htime; reflexivity).
  apply lookup_replicate_2, Hi.
Qed.

Lemma size_flag_bits bits :
  bits ∈ data_sizes ->
  size_bits (c_cflag (translated 0 bits)) = size_flag bits.
Proof.
  intros Hd. apply data_sizes_cases in Hd.
  repeat (destruct Hd as [Hd | Hd]); rewrite Hd; reflexivity.
Qed.

Lemma size_flag_inj d d' :
  d ∈ data_sizes -> d' ∈ data_sizes -> size_flag d = size_flag d' -> d = d'.
Proof.
  intros Hd Hd'. apply data_sizes_cases in Hd, Hd'.
  repeat (destruct Hd as [Hd | Hd]); rewrite Hd;
    repeat (destruct Hd' as [Hd' | Hd']); rewrite Hd';
    first [reflexivity | discriminate].
Qed.

(** C3. For every BaudRate of the enumerated set (with valid DataBits) the
    translation succeeds and both the input-speed and the output-speed
    field of the record hold that exact rate; for every BaudRate outside
    the set it fails with "Invalid setting for BaudRate." and produces no
    record. *)
Theorem convertOptions_BaudRate options :
  (BaudRate options ∈ baud_rates -> DataBits options ∈ data_sizes ->
   exists t, convertOptions options = (Some t, None) /\
             c_ispeed t = BaudRate options /\
             c_ospeed t = BaudRate options) /\
  (BaudRate options ∉ baud_rates ->
   convertOptions options
   = (None, Some (os.NewError "Invalid setting for BaudRate."))).
Proof.
  split.
  - intros Hb Hd. eexists. split; [apply convertOptions_good; assumption |].
    split; reflexivity.
  - apply convertOptions_bad_rate.
Qed.

Lemma convertOptions_BaudRate_witness :
  (exists t,
     convertOptions {| PortName := "/dev/tty.usbserial"; BaudRate := 115200;
                       DataBits := 7 |} = (Some t, None) /\
     c_ispeed t = 115200 /\ c_ospeed t = 115200) /\
  convertOptions {| PortName := "/dev/tty.usbserial"; BaudRate := 9601;
                    DataBits := 8 |}
  = (None, Some (os.NewError "Invalid setting for BaudRate.")).
Proof.
  split.
  - apply (proj1 (convertOptions_BaudRate
                    {| PortName := "/dev/tty.usbserial"; BaudRate := 115200;
                       DataBits := 7 |})); by_computation.
  - apply (proj2 (convertOptions_BaudRate
                    {| PortName := "/dev/tty.usbserial"; BaudRate := 9601;
                       DataBits := 8 |})).
    intros H. apply (bool_decide_pack _) in H. vm_compute in H. exact H.
Defined.

(** C4, as amended.  The rate is checked first, so the claim holds for
    configurations whose BaudRate is accepted: for every DataBits in
    {5,6,7,8} the translation succeeds and the size bits of the control
    flags hold exactly the pattern of that size (CS5, CS6, CS7, CS8) and
    none of the other three, the four patterns being pairwise distinct;
    for every other DataBits it fails with "Invalid setting for
    DataBits.". *)
Theorem convertOptions_DataBits options :
  BaudRate options ∈ baud_rates ->
  (DataBits options ∈ data_sizes ->
   exists t, convertOptions options = (Some t, None) /\
             c_cflag t
             = Z.lor (Z.lor CLOCAL CREAD) (size_flag (DataBits options)) /\
             size_bits (c_cflag t) = size_flag (DataBits options) /\
             forall d, d ∈ data_sizes -> d <> DataBits options ->
                       size_bits (c_cflag t) <> size_flag d) /\
  (DataBits options ∉ data_sizes ->
   convertOptions options
   = (None, Some (os.NewError "Invalid setting for DataBits."))) /\
  (size_flag 5 = CS5 /\ size_flag 6 = CS6 /\
   size_flag 7 = CS7 /\ size_flag 8 = CS8) /\
  NoDup [CS5; CS6; CS7; CS8].
Proof.
  intros Hb. repeat split.
  - intros Hd. eexists. split; [apply convertOptions_good; assumption |].
    split; [reflexivity |].
    pose proof (size_flag_bits _ Hd) as Hbits.
    split; [exact Hbits |].
    intros d Hd' Hne Heq. apply Hne. symmetry.
    apply size_flag_inj; [assumption .. |].
    rewrite <- Hbits. exact Heq.
  - apply convertOptions_bad_size, Hb.
  - by_computation.
Qed.

Lemma convertOptions_DataBits_witness :
  BaudRate usb_9600_8 ∈ baud_rates /\
  exists t, convertOptions usb_9600_8 = (Some t, None) /\
            size_bits (c_cflag t) = CS8.
Proof.
  assert (Hb : BaudRate usb_9600_8 ∈ baud_rates) by by_computation.
  assert (Hd : DataBits usb_9600_8 ∈ data_sizes) by by_computation.
  split; [exact Hb |].
  destruct (proj1 (convertOptions_DataBits usb_9600_8 Hb) Hd)
    as (t & Ht & _ & Hsize & _).
  exists t. split; [exact Ht | exact Hsize].
Defined.

(** C4 as stated fails: with a BaudRate outside its set, a DataBits value
    outside {5,6,7,8} is reported as a BaudRate failure, not as "Invalid
    setting for DataBits.". *)
Lemma convertOptions_DataBits_rate_first :
  (DataBits usb_9601_9 ∉ data_sizes) /\
  convertOptions usb_9601_9
  = (None, Some (os.NewError "Invalid setting for BaudRate.")) /\
  convertOptions usb_9601_9
  <> (None, Some (os.NewError "Invalid setting for DataBits.")).
Proof.
  split; [| split].
  - intros H. apply (bool_decide_pack _) in H. vm_compute in H. exact H.
  - reflexivity.
  - discriminate.
Qed.

(** C5, as amended.  For every accepted configuration the "minimum bytes"
    control character is 1 and the "inter-byte timeout" control character
    is 0, and the whole control-character array is the same whatever the
    other configuration values are. *)
Theorem convertOptions_min_bytes_timeout options options' t t' :
  (convertOptions options).1 = Some t ->
  (convertOptions options').1 = Some t' ->
  c_cc t !! Z.to_nat VMIN = Some 1 /\
  c_cc t !! Z.to_nat VTIME = Some 0 /\
  c_cc t = c_cc t'.
Proof.
  intros Ht Ht'.
  apply convertOptions_accepted in Ht as (_ & _ & _ & ->).
  apply convertOptions_accepted in Ht' as (_ & _ & _ & ->).
  repeat split.
Qed.

Lemma convertOptions_min_bytes_timeout_witness :
  c_cc (translated 9600 8) !! Z.to_nat VMIN = Some 1 /\
  c_cc (translated 9600 8) !! Z.to_nat VTIME = Some 0 /\
  c_cc (translated 9600 8) = c_cc (translated 50 5).
Proof.
  apply (convertOptions_min_bytes_timeout usb_9600_8
           {| PortName := "/dev/cu.modem"; BaudRate := 50; DataBits := 5 |});
    reflexivity.
Defined.

(** C5 as stated fails: the record built for 9600 baud, 8 data bits has
    "minimum bytes" 1 (not 0) and "inter-byte timeout" 0 (not 1). *)
Lemma convertOptions_min_bytes_not_zero :
  exists t,
    convertOptions usb_9600_8 = (Some t, None) /\
    c_cc t !! Z.to_nat VMIN = Some 1 /\
    c_cc t !! Z.to_nat VTIME = Some 0 /\
    c_cc t !! Z.to_nat VMIN <> Some 0 /\
    c_cc t !! Z.to_nat VTIME <> Some 1.
Proof.
  eexists. split; [reflexivity |].
  repeat split; discriminate.
Qed.

(** C6. For every accepted configuration the "inter-byte timeout" control
    character (c_cc[VTIME]) of the record is 0 and the "minimum bytes per
    read" control character (c_cc[VMIN]) is 1. *)
Theorem convertOptions_VTIME_VMIN options t :
  (convertOptions options).1 = Some t ->
  c_cc t !! Z.to_nat VTIME = Some 0 /\ c_cc t !! Z.to_nat VMIN = Some 1.
Proof.
  intros Ht. apply convertOptions_accepted in Ht as (_ & _ & _ & ->).
  split; reflexivity.
Qed.

Lemma convertOptions_VTIME_VMIN_witness :
  c_cc (translated 9600 8) !! Z.to_nat VTIME = Some 0 /\
  c_cc (translated 9600 8) !! Z.to_nat VMIN = Some 1.
Proof.
  apply (convertOptions_VTIME_VMIN usb_9600_8). reflexivity.
Defined.

(** C7. For every accepted configuration the control flags of the record
    contain CLOCAL and CREAD and its input flags contain IGNPAR; and the
    configuration with BaudRate 9600 and DataBits 8 yields control flags
    made of CS8, CLOCAL and CREAD, both speeds 9600, timeout character 0
    and min-bytes character 1. *)
Theorem convertOptions_fixed_flags :
  (forall options t,
      (convertOptions options).1 = Some t ->
      has_flags (c_cflag t) CLOCAL /\ has_flags (c_cflag t) CREAD /\
      has_flags (c_iflag t) IGNPAR) /\
  (forall name,
      exists t,
        convertOptions {| PortName := name; BaudRate := 9600; DataBits := 8 |}
        = (Some t, None) /\
        c_cflag t = Z.lor CS8 (Z.lor CLOCAL CREAD) /\
        has_flags (c_cflag t) CS8 /\ size_bits (c_cflag t) = CS8 /\
        has_flags (c_cflag t) CLOCAL /\ has_flags (c_cflag t) CREAD /\
        c_ispeed t = 9600 /\ c_ospeed t = 9600 /\
        c_cc t !! Z.to_nat VTIME = Some 0 /\
        c_cc t !! Z.to_nat VMIN = Some 1).
Proof.
  split.
  - intros options t Ht.
    apply convertOptions_accepted in Ht as (_ & Hd & _ & ->).
    apply data_sizes_cases in Hd.
    repeat (destruct Hd as [Hd | Hd]); unfold has_flags; simpl; rewrite Hd;
      repeat split.
  - intros name. eexists. split; [reflexivity |]. repeat split.
Qed.

Lemma convertOptions_fixed_flags_witness :
  has_flags (c_cflag (translated 9600 8)) CLOCAL /\
  has_flags (c_cflag (translated 9600 8)) CREAD /\
  has_flags (c_iflag (translated 9600 8)) IGNPAR.
Proof.
  apply (proj1 convertOptions_fixed_flags usb_9600_8). reflexivity.
Defined.

(** C10. For every accepted configuration the output flags and the local
    flags of the record are zero, and so is every control character other
    than the two at VMIN and VTIME: the other 18 of the NCCS = 20. *)
Theorem convertOptions_frame options t :
  (convertOptions options).1 = Some t ->
  c_oflag t = 0 /\ c_lflag t = 0 /\
  length (c_cc t) = NCCS /\
  (forall i : nat,
      (i < NCCS)%nat -> i <> Z.to_nat VMIN -> i <> Z.to_nat VTIME ->
      c_cc t !! i = Some 0) /\
  length (filter (fun i => i <> Z.to_nat VMIN /\ i <> Z.to_nat VTIME)
                 (seq 0 NCCS)) = 18%nat.
Proof.
  intros Ht. apply convertOptions_accepted in Ht as (_ & _ & _ & ->).
  split; [reflexivity |]. split; [reflexivity |].
  split; [apply translated_cc_length |].
  split; [apply translated_cc_other |].
  vm_compute. reflexivity.
Qed.

Lemma convertOptions_frame_witness :
  c_oflag (translated 9600 8) = 0 /\ c_lflag (translated 9600 8) = 0 /\
  c_cc (translated 9600 8) !! 0%nat = Some 0.
Proof.
  destruct (convertOptions_frame usb_9600_8 (translated 9600 8) eq_refl)
    as (Ho & Hl & _ & Hcc & _).
  split; [exact Ho |]. split; [exact Hl |].
  apply Hcc; [unfold NCCS; lia | discriminate | discriminate].
Defined.

End TranslationClaims.

(** * Further properties of the translation *)

Section TranslationMore.

Implicit Types (options : OpenOptions) (t : termios).

(* Which bits of a 16-bit constant are set is settled by looking at the
   sixteen positions. *)
Lemma set_bits_below (a : Z) (P : Z -> Prop) :
  0 <= a < 2 ^ 16 ->
  Forall (fun n => Z.testbit a n = true -> P n) (seqZ 0 16) ->
  forall n, Z.testbit a n = true -> P n.
Proof.
  intros Ha Hall n Hn.
  destruct (Z_lt_ge_dec n 0) as [Hneg | Hpos].
  { rewrite Z.testbit_neg_r in Hn by exact Hneg. discriminate. }
  destruct (Z_lt_ge_dec n 16) as [Hlow | Hhigh].
  - rewrite Forall_forall in Hall. apply Hall; [| exact Hn].
    apply elem_of_seqZ. lia.
  - destruct (Z.eq_dec a 0) as [-> | Hnz].
    { rewrite Z.bits_0 in Hn. discriminate. }
    rewrite Z.bits_above_log2 in Hn; [discriminate | lia |].
    assert (Z.log2 a < 16) by (apply Z.log2_lt_pow2; lia). lia.
Qed.

(* A record and no error, or an error and no record. *)
Lemma convertOptions_record_cases options :
  (exists t, convertOptions options = (Some t, None)) \/
  (exists err, convertOptions options = (None, Some err)).
Proof.
  destruct (decide (BaudRate options ∈ baud_rates)) as [Hb | Hb].
  - destruct (decide (DataBits options ∈ data_sizes)) as [Hd | Hd].
    + left. rewrite (convertOptions_good _ Hb Hd). eauto.
    + right. rewrite (convertOptions_bad_size _ Hb Hd). eauto.
  - right. rewrite (convertOptions_bad_rate _ Hb). eauto.
Qed.

(** X1. A configuration is accepted exactly when both its BaudRate and its
    DataBits are in their sets; the translation returns either a record and
    no error, or an error and no record, never both and never neither. *)
Theorem convertOptions_record_xor_error options :
  (BaudRate options ∈ baud_rates /\ DataBits options ∈ data_sizes /\
   exists t, convertOptions options = (Some t, None)) \/
  ((BaudRate options ∉ baud_rates \/ DataBits options ∉ data_sizes) /\
   exists err, convertOptions options = (None, Some err)).
Proof.
  destruct (decide (BaudRate options ∈ baud_rates)) as [Hb | Hb].
  - destruct (decide (DataBits options ∈ data_sizes)) as [Hd | Hd].
    + left. rewrite (convertOptions_good _ Hb Hd). eauto.
    + right. rewrite (convertOptions_bad_size _ Hb Hd). eauto.
  - right. rewrite (convertOptions_bad_rate _ Hb). eauto.
Qed.

(** X2. The configuration can be read back from the record: the input
    speed is the BaudRate, and the size bits of the control flags, shifted
    down by 8, count the DataBits above 5. *)
Theorem convertOptions_round_trip options t :
  (convertOptions options).1 = Some t ->
  BaudRate options = c_ispeed t /\
  DataBits options = 5 + Z.shiftr (size_bits (c_cflag t)) 8.
Proof.
  intros Ht. apply convertOptions_accepted in Ht as (_ & Hd & _ & ->).
  split; [reflexivity |].
  apply data_sizes_cases in Hd.
  repeat (destruct Hd as [Hd | Hd]); rewrite Hd; reflexivity.
Qed.

Lemma convertOptions_round_trip_witness :
  BaudRate usb_9600_8 = c_ispeed (translated 9600 8) /\
  DataBits usb_9600_8
  = 5 + Z.shiftr (size_bits (c_cflag (translated 9600 8))) 8.
Proof.
  apply (convertOptions_round_trip usb_9600_8). reflexivity.
Defined.

(** X3. Two accepted configurations give the same record exactly when they
    have the same BaudRate and the same DataBits: the port name plays no
    part, and distinct settings never collapse into one record. *)
Theorem convertOptions_same_record options options' t t' :
  (convertOptions options).1 = Some t ->
  (convertOptions options').1 = Some t' ->
  t = t' <->
  BaudRate options = BaudRate options' /\
  DataBits options = DataBits options'.
Proof.
  intros Ht Ht'.
  pose proof (convertOptions_accepted _ _ Ht) as (_ & Hd & _ & Heq).
  pose proof (convertOptions_accepted _ _ Ht') as (_ & Hd' & _ & Heq').
  split.
  - intros <-. rewrite Heq in Heq'.
    injection Heq' as Hflag Hrate _. split; [exact Hrate |].
    apply size_flag_inj; [assumption .. |].
    apply data_sizes_cases in Hd, Hd'.
    repeat (destruct Hd as [Hd | Hd]); rewrite Hd in Hflag |- *;
      repeat (destruct Hd' as [Hd' | Hd']); rewrite Hd' in Hflag |- *;
      first [reflexivity | discriminate Hflag].
  - intros [Hrate Hsize]. rewrite Heq, Heq', Hrate, Hsize. reflexivity.
Qed.

Lemma convertOptions_same_record_witness :
  translated 9600 8 = translated 50 5 <->
  BaudRate usb_9600_8 = BaudRate modem_50_5 /\
  DataBits usb_9600_8 = DataBits modem_50_5.
Proof.
  apply (convertOptions_same_record usb_9600_8 modem_50_5); reflexivity.
Defined.

(** X4. In an accepted record the input flags have bit 2 (IGNPAR) set and
    no other; the control flags have bits 11 (CREAD) and 15 (CLOCAL) set,
    and apart from these only bits 8 and 9, the character size, can be
    set. *)
Theorem convertOptions_flag_bits options t :
  (convertOptions options).1 = Some t ->
  (forall n, Z.testbit (c_iflag t) n = true <-> n = 2) /\
  Z.testbit (c_cflag t) 11 = true /\
  Z.testbit (c_cflag t) 15 = true /\
  (forall n, Z.testbit (c_cflag t) n = true ->
             n = 8 \/ n = 9 \/ n = 11 \/ n = 15).
Proof.
  intros Ht. apply convertOptions_accepted in Ht as (_ & Hd & _ & ->).
  apply data_sizes_cases in Hd.
  split; [| split; [| split]].
  - intros n. split; [| intros ->; reflexivity]. revert n.
    apply (set_bits_below _ (fun n => n = 2));
      [vm_compute; split; congruence |].
    by_computation.
  - repeat (destruct Hd as [Hd | Hd]); rewrite Hd; reflexivity.
  - repeat (destruct Hd as [Hd | Hd]); rewrite Hd; reflexivity.
  - repeat (destruct Hd as [Hd | Hd]); rewrite Hd;
      (apply (set_bits_below
                _ (fun n => n = 8 \/ n = 9 \/ n = 11 \/ n = 15));
       [vm_compute; split; congruence |]);
      by_computation.
Qed.

Lemma convertOptions_flag_bits_witness :
  Z.testbit (c_cflag (translated 9600 8)) 11 = true /\
  Z.testbit (c_cflag (translated 9600 8)) 15 = true.
Proof.
  destruct (convertOptions_flag_bits usb_9600_8 (translated 9600 8) eq_refl)
    as (_ & H11 & H15 & _).
  split; [exact H11 | exact H15].
Defined.

(** X5. Every field of an accepted record fits its type with room to
    spare: the flags are below 2^16, the speeds are equal and lie between
    50 and 230400, and the NCCS control characters are bytes. *)
Theorem convertOptions_field_bounds options t :
  (convertOptions options).1 = Some t ->
  0 <= c_iflag t < 2 ^ 16 /\ 0 <= c_cflag t < 2 ^ 16 /\
  c_ispeed t = c_ospeed t /\ 50 <= c_ispeed t <= 230400 /\
  length (c_cc t) = NCCS /\ Forall (fun c => 0 <= c < 2 ^ 8) (c_cc t).
Proof.
  intros Ht. apply convertOptions_accepted in Ht as (Hb & Hd & _ & ->).
  apply data_sizes_cases in Hd. apply baud_rates_cases in Hb.
  split; [vm_compute; split; congruence |].
  split.
  { repeat (destruct Hd as [Hd | Hd]); rewrite Hd; vm_compute;
      split; congruence. }
  split; [reflexivity |].
  split.
  { simpl c_ispeed. repeat (destruct Hb as [Hb | Hb]); rewrite Hb; lia. }
  split; [reflexivity |].
  simpl c_cc. repeat constructor; lia.
Qed.

Lemma convertOptions_field_bounds_witness :
  50 <= c_ispeed (translated 9600 8) <= 230400.
Proof.
  destruct (convertOptions_field_bounds usb_9600_8 (translated 9600 8)
              eq_refl) as (_ & _ & _ & Hspeed & _).
  exact Hspeed.
Defined.

End TranslationMore.

(** * Properties of the open sequence *)

Section MachineWords.

Lemma uintptr_range (x : Z) : 0 <= uintptr x < 2 ^ 64.
Proof. unfold uintptr, wrap64. apply Z.mod_pos_bound. lia. Qed.

(* An errno of the kernel's range is read back unchanged. *)
Lemma int_small (x : Z) : 0 <= x < 2 ^ 31 -> int x = x.
Proof.
  intros Hx. unfold int. rewrite Z.mod_small by lia. lia.
Qed.

Lemma NewSyscallError_nil (name : string) (errno : Z) :
  errno = 0 -> os.NewSyscallError name errno = None.
Proof. intros ->. reflexivity. Qed.

Lemma NewSyscallError_error (name : string) (errno : Z) :
  errno <> 0 ->
  os.NewSyscallError name errno = Some (os.SyscallError name errno).
Proof.
  intros H. unfold os.NewSyscallError.
  destruct (Z.eqb_spec errno 0); [contradiction | reflexivity].
Qed.

End MachineWords.

Section OpenSequence.

Variable sys : System.

Implicit Types (options : OpenOptions) (h : list call) (file fd : Z).
Implicit Types (t : termios) (err : os.Error).

(* What a system call hands back comes from the system, as words. *)
Lemma Syscall_words trap a1 a2 a3 h r1 r2 errno :
  (syscall.Syscall sys trap a1 a2 a3 h).1 = (r1, r2, errno) ->
  syscall.Syscall sys trap a1 a2 a3 h
  = ((r1, r2, errno), h ++ [Syscall trap a1 a2 a3]) /\
  (exists x, r1 = uintptr x) /\ (exists x, errno = uintptr x).
Proof.
  unfold syscall.Syscall.
  destruct (syscall_result sys h trap a1 a2 a3) as [[x1 x2] x3]. simpl.
  intros [= <- <- <-]. eauto.
Qed.

(* The errno of a system call is a word: below 2^31 it is what int reads. *)
Lemma Syscall_errno trap a1 a2 a3 h r1 r2 errno :
  (syscall.Syscall sys trap a1 a2 a3 h).1 = (r1, r2, errno) ->
  errno < 2 ^ 31 -> int errno = errno.
Proof.
  intros Hcall Hlt. apply Syscall_words in Hcall as (_ & _ & [x ->]).
  apply int_small. pose proof (uintptr_range x). lia.
Qed.

Lemma setTermios_cases fd src h r1 r2 errno :
  (syscall.Syscall sys syscall.SYS_IOCTL (uintptr fd) (uintptr TIOCSETA)
                   (Pointer src) h).1 = (r1, r2, errno) ->
  setTermios sys fd src h
  = (if decide (int errno = 0)
     then if decide (r1 = 0) then None
          else Some (os.NewError "Unknown error from SYS_IOCTL.")
     else Some (os.SyscallError "SYS_IOCTL" (int errno)),
     h ++ [ioctl_call fd src]).
Proof.
  intros Hcall. apply Syscall_words in Hcall as (Hcall & _).
  unfold setTermios, bind. rewrite Hcall. cbv beta iota.
  destruct (decide (int errno = 0)) as [He | He].
  - rewrite NewSyscallError_nil by exact He.
    destruct (decide (r1 = 0)) as [-> | Hr]; [reflexivity |].
    destruct (Z.eqb_spec r1 0); [contradiction | reflexivity].
  - rewrite NewSyscallError_error by exact He. reflexivity.
Qed.

Lemma openInternal_open_failed options h err :
  open_result sys h (PortName options)
              (Z.lor (Z.lor os.O_RDWR os.O_NOCTTY) os.O_NONBLOCK) 384
  = inr err ->
  openInternal sys options h = ((None, Some err), h ++ [open_call options]).
Proof.
  intros Hopen. unfold openInternal, bind, os_OpenFile. rewrite Hopen.
  reflexivity.
Qed.

(* The sequence once the device is open and the flag call has answered. *)
Lemma openInternal_opened options h file r1 r2 errno :
  open_result sys h (PortName options)
              (Z.lor (Z.lor os.O_RDWR os.O_NOCTTY) os.O_NONBLOCK) 384
  = inl file ->
  (syscall.Syscall sys syscall.SYS_FCNTL (uintptr file)
                   (uintptr syscall.F_SETFL) (Word (uintptr 0))
                   (h ++ [open_call options])).1 = (r1, r2, errno) ->
  let h2 := h ++ [open_call options; fcntl_call file] in
  openInternal sys options h
  = if decide (int errno = 0)
    then if decide (r1 = 0)
         then match convertOptions options with
              | (_, Some err) => ((None, Some err), h2)
              | (terminalOptions, None) =>
                  let (err, h3) := setTermios sys file terminalOptions h2 in
                  match err with
                  | Some err => ((None, Some err), h3)
                  | None => ((Some file, None), h3)
                  end
              end
         else ((None, Some (os.NewError "Unknown error from SYS_FCNTL.")),
               h2)
    else ((None, Some (os.SyscallError "SYS_IOCTL" (int errno))), h2).
Proof.
  intros Hopen Hcall h2.
  apply Syscall_words in Hcall as (Hcall & _).
  unfold openInternal, bind, os_OpenFile. rewrite Hopen. cbv beta iota.
  fold (open_call options). rewrite Hcall. cbv beta iota.
  fold (fcntl_call file). rewrite <- app_assoc. simpl app. fold h2.
  destruct (decide (int errno = 0)) as [He | He].
  - rewrite NewSyscallError_nil by exact He.
    destruct (decide (r1 = 0)) as [-> | Hr].
    + change (negb (0 =? 0)) with false. cbv beta iota.
      destruct (convertOptions options) as [t [err |]];
        cbv beta iota; [reflexivity |].
      destruct (setTermios sys file t h2) as [[err |] h3]; reflexivity.
    + destruct (Z.eqb_spec r1 0); [contradiction | reflexivity].
  - rewrite NewSyscallError_error by exact He. reflexivity.
Qed.

Lemma convertOptions_errors options (t : option termios) err :
  convertOptions options = (t, Some err) ->
  t = None /\
  (err = os.NewError "Invalid setting for BaudRate." \/
   err = os.NewError "Invalid setting for DataBits.").
Proof.
  destruct (decide (BaudRate options ∈ baud_rates)) as [Hb | Hb].
  - destruct (decide (DataBits options ∈ data_sizes)) as [Hd | Hd].
    + rewrite (convertOptions_good _ Hb Hd). discriminate.
    + rewrite (convertOptions_bad_size _ Hb Hd). intros [= <- <-]. auto.
  - rewrite (convertOptions_bad_rate _ Hb). intros [= <- <-]. auto.
Qed.

Lemma convertOptions_invalid options :
  BaudRate options ∉ baud_rates \/ DataBits options ∉ data_sizes ->
  exists err, convertOptions options = (None, Some err) /\
              (err = os.NewError "Invalid setting for BaudRate." \/
               err = os.NewError "Invalid setting for DataBits.").
Proof.
  intros Hbad.
  destruct (decide (BaudRate options ∈ baud_rates)) as [Hb | Hb].
  - destruct Hbad as [Hbad | Hd]; [contradiction |].
    rewrite (convertOptions_bad_size _ Hb Hd). eauto.
  - rewrite (convertOptions_bad_rate _ Hb). eauto.
Qed.

Lemma setTermios_calls fd src h :
  (setTermios sys fd src h).2 = h ++ [ioctl_call fd src].
Proof.
  destruct (syscall.Syscall sys syscall.SYS_IOCTL (uintptr fd)
              (uintptr TIOCSETA) (Pointer src) h).1
    as [[r1 r2] errno] eqn:Hcall.
  rewrite (setTermios_cases _ _ _ _ _ _ Hcall). reflexivity.
Qed.

(* The calls of one run: the open, then the flag call, then the attribute
   call, stopping at the first failure. *)
Lemma openInternal_calls options h :
  let run := openInternal sys options h in
  (exists err, run = ((None, Some err), h ++ [open_call options])) \/
  (exists file err,
      run = ((None, Some err), h ++ [open_call options; fcntl_call file])) \/
  (exists file t,
      convertOptions options = (Some t, None) /\
      run.2 = h ++ [open_call options; fcntl_call file;
                    ioctl_call file (Some t)] /\
      (run.1 = (Some file, None) \/ exists err, run.1 = (None, Some err))).
Proof.
  intros run. subst run.
  destruct (open_result sys h (PortName options)
              (Z.lor (Z.lor os.O_RDWR os.O_NOCTTY) os.O_NONBLOCK) 384)
    as [file | err] eqn:Hopen.
  2: { left. exists err. apply openInternal_open_failed, Hopen. }
  right.
  destruct (syscall.Syscall sys syscall.SYS_FCNTL (uintptr file)
              (uintptr syscall.F_SETFL) (Word (uintptr 0))
              (h ++ [open_call options])).1
    as [[r1 r2] errno] eqn:Hcall.
  rewrite (openInternal_opened _ _ _ _ _ _ Hopen Hcall).
  destruct (decide (int errno = 0)); [| left; eauto].
  destruct (decide (r1 = 0)); [| left; eauto].
  destruct (convertOptions options) as [t [err |]] eqn:Hconv;
    [left; eauto |].
  destruct t as [t |].
  2: { exfalso.
       destruct (decide (BaudRate options ∈ baud_rates)) as [Hb | Hb].
       - destruct (decide (DataBits options ∈ data_sizes)) as [Hd | Hd].
         + rewrite (convertOptions_good _ Hb Hd) in Hconv. discriminate.
         + rewrite (convertOptions_bad_size _ Hb Hd) in Hconv.
           discriminate.
       - rewrite (convertOptions_bad_rate _ Hb) in Hconv. discriminate. }
  right. exists file, t. split; [reflexivity |].
  pose proof (setTermios_calls file (Some t)
                (h ++ [open_call options; fcntl_call file])) as Hcalls.
  destruct (setTermios sys file (Some t)
              (h ++ [open_call options; fcntl_call file]))
    as [[err |] h3]; simpl in Hcalls; subst h3;
    rewrite <- app_assoc; simpl; eauto.
Qed.

(* A run whose open and flag call succeeded, for an accepted
   configuration: the attribute call decides. *)
Lemma openInternal_configured options h file t r1' r2' errno' :
  open_answer sys options h = inl file ->
  reports_success (fcntl_answer sys options h file) ->
  convertOptions options = (Some t, None) ->
  ioctl_answer sys options h file t = (r1', r2', errno') ->
  openInternal sys options h
  = (if decide (int errno' = 0)
     then if decide (r1' = 0) then (Some file, None)
          else (None, Some (os.NewError "Unknown error from SYS_IOCTL."))
     else (None, Some (os.SyscallError "SYS_IOCTL" (int errno'))),
     h ++ [open_call options; fcntl_call file; ioctl_call file (Some t)]).
Proof.
  intros Hopen Hfcntl Hconv Hioctl.
  destruct (fcntl_answer sys options h file) as [[r1 r2] errno] eqn:Hans.
  destruct Hfcntl as [He ->].
  rewrite (openInternal_opened _ _ _ _ _ _ Hopen Hans).
  destruct (decide (int errno = 0)); [| contradiction].
  destruct (decide (0 = 0)); [| contradiction].
  rewrite Hconv.
  rewrite (setTermios_cases _ _ _ _ _ _ Hioctl).
  rewrite <- app_assoc. simpl.
  destruct (decide (int errno' = 0)); [destruct (decide (r1' = 0)) |];
    reflexivity.
Qed.

(* Every run is one of five: the open fails; the flag call fails; the
   configuration is refused; the attribute call fails; all succeed. *)
Lemma openInternal_cases options h :
  let run := openInternal sys options h in
  let o := open_call options in
  (exists err,
      open_answer sys options h = inr err /\
      run = ((None, Some err), h ++ [o])) \/
  (exists file err,
      open_answer sys options h = inl file /\
      ~ reports_success (fcntl_answer sys options h file) /\
      run = ((None, Some err), h ++ [o; fcntl_call file])) \/
  (exists file err,
      open_answer sys options h = inl file /\
      reports_success (fcntl_answer sys options h file) /\
      convertOptions options = (None, Some err) /\
      run = ((None, Some err), h ++ [o; fcntl_call file])) \/
  (exists file t err,
      open_answer sys options h = inl file /\
      reports_success (fcntl_answer sys options h file) /\
      convertOptions options = (Some t, None) /\
      ~ reports_success (ioctl_answer sys options h file t) /\
      run = ((None, Some err),
             h ++ [o; fcntl_call file; ioctl_call file (Some t)])) \/
  (exists file t,
      open_answer sys options h = inl file /\
      reports_success (fcntl_answer sys options h file) /\
      convertOptions options = (Some t, None) /\
      reports_success (ioctl_answer sys options h file t) /\
      run = ((Some file, None),
             h ++ [o; fcntl_call file; ioctl_call file (Some t)])).
Proof.
  intros run o. subst run o.
  destruct (open_answer sys options h) as [file | err] eqn:Hopen.
  2: { left. exists err. split; [reflexivity |].
       apply openInternal_open_failed, Hopen. }
  right.
  destruct (fcntl_answer sys options h file) as [[r1 r2] errno] eqn:Hfcntl.
  pose proof (openInternal_opened _ _ _ _ _ _ Hopen Hfcntl) as Hrun.
  cbv zeta in Hrun.
  destruct (decide (int errno = 0)) as [He | He].
  2: { left. eexists file, _. rewrite Hfcntl.
       split; [reflexivity |]. split; [| exact Hrun].
       intros [He' _]. contradiction. }
  destruct (decide (r1 = 0)) as [-> | Hr].
  2: { left. eexists file, _. rewrite Hfcntl.
       split; [reflexivity |]. split; [| exact Hrun].
       intros [_ Hr']. contradiction. }
  right. clear Hrun.
  assert (Hok : reports_success (fcntl_answer sys options h file)).
  { rewrite Hfcntl. split; [exact He | reflexivity]. }
  destruct (convertOptions_record_cases options)
    as [(t & Hconv) | (err & Hconv)].
  2: { left. exists file, err.
       split; [reflexivity |]. split; [exact Hok |]. split; [exact Hconv |].
       rewrite (openInternal_opened _ _ _ _ _ _ Hopen Hfcntl).
       destruct (decide (int errno = 0)); [| contradiction].
       destruct (decide (0 = 0)); [| contradiction].
       rewrite Hconv. reflexivity. }
  right.
  destruct (ioctl_answer sys options h file t) as [[r1' r2'] errno']
    eqn:Hioctl.
  pose proof (openInternal_configured _ _ _ _ _ _ _
                Hopen Hok Hconv Hioctl) as Hrun.
  destruct (decide (int errno' = 0)) as [He' | He'].
  2: { left. eexists file, t, _. rewrite Hioctl.
       repeat (split; [first [reflexivity | assumption] |]).
       split; [| exact Hrun]. intros [H' _]. contradiction. }
  destruct (decide (r1' = 0)) as [-> | Hr'].
  2: { left. eexists file, t, _. rewrite Hioctl.
       repeat (split; [first [reflexivity | assumption] |]).
       split; [| exact Hrun]. intros [_ H']. contradiction. }
  right. exists file, t. rewrite Hioctl.
  repeat (split; [first [reflexivity | assumption] |]).
  split; [split; [exact He' | reflexivity] | exact Hrun].
Qed.

(* Splits a goal about a run into the five kinds of run. *)
Ltac run_cases options h :=
  let H := fresh "Hcases" in
  pose proof (openInternal_cases options h) as H; cbv zeta in H;
  destruct H as
    [ (err' & Hopen & Hrun)
    | [ (file' & err' & Hopen & Hfcntl & Hrun)
      | [ (file' & err' & Hopen & Hfcntl & Hconv & Hrun)
        | [ (file' & t' & err' & Hopen & Hfcntl & Hconv & Hioctl & Hrun)
          | (file' & t' & Hopen & Hfcntl & Hconv & Hioctl & Hrun) ]]]];
  rewrite Hrun.

Lemma calls_longer (h : list call) (c c' : call) (l : list call) :
  h ++ c :: c' :: l <> h ++ [c].
Proof.
  intros H. apply (f_equal length) in H.
  rewrite !length_app in H. simpl in H. lia.
Qed.

(* Below 2^31 the answer of a call is taken as a success exactly when its
   errno and its first return value are zero. *)
Lemma reports_success_small trap a1 a2 a3 h r1 r2 errno :
  (syscall.Syscall sys trap a1 a2 a3 h).1 = (r1, r2, errno) ->
  errno < 2 ^ 31 ->
  reports_success (r1, r2, errno) <-> errno = 0 /\ r1 = 0.
Proof.
  intros Hcall Hlt. unfold reports_success.
  rewrite (Syscall_errno _ _ _ _ _ _ _ _ Hcall Hlt). tauto.
Qed.

(** C8. The attribute applier fails with the OS error of the ioctl exactly
    when the errno of the set-attributes call, converted to int as the code
    does, is nonzero: for an errno below 2^31, as the errno numbers of the
    kernel are, exactly when the errno is nonzero.  With the errno zero and
    a nonzero primary return value it fails with "Unknown error from
    SYS_IOCTL."; otherwise it returns nil.  It makes that one call. *)
Theorem setTermios_result fd src h r1 r2 errno :
  (syscall.Syscall sys syscall.SYS_IOCTL (uintptr fd) (uintptr TIOCSETA)
                   (Pointer src) h).1 = (r1, r2, errno) ->
  let result := (setTermios sys fd src h).1 in
  let failed := exists name n, result = Some (os.SyscallError name n) in
  (failed <-> int errno <> 0) /\
  (int errno <> 0 ->
   result = Some (os.SyscallError "SYS_IOCTL" (int errno))) /\
  (int errno = 0 -> r1 <> 0 ->
   result = Some (os.NewError "Unknown error from SYS_IOCTL.")) /\
  (int errno = 0 -> r1 = 0 -> result = None) /\
  (errno < 2 ^ 31 -> int errno = errno /\ (failed <-> errno <> 0)) /\
  (setTermios sys fd src h).2 = h ++ [ioctl_call fd src].
Proof.
  intros Hcall result failed.
  assert (Hmain : (failed <-> int errno <> 0) /\
                  (int errno <> 0 ->
                   result = Some (os.SyscallError "SYS_IOCTL" (int errno))) /\
                  (int errno = 0 -> r1 <> 0 ->
                   result
                   = Some (os.NewError "Unknown error from SYS_IOCTL.")) /\
                  (int errno = 0 -> r1 = 0 -> result = None)).
  { subst failed result.
    rewrite (setTermios_cases _ _ _ _ _ _ Hcall). simpl.
    destruct (decide (int errno = 0)) as [He | He];
      [destruct (decide (r1 = 0)) as [Hr | Hr] |].
    all: repeat split; try congruence; try contradiction; eauto.
    all: intros (name & n & H); discriminate. }
  destruct Hmain as (Hiff & Herr & Hodd & Hnil).
  repeat (split; [assumption |]).
  split; [| apply setTermios_calls].
  intros Hlt. pose proof (Syscall_errno _ _ _ _ _ _ _ _ Hcall Hlt) as Hint.
  split; [exact Hint |]. rewrite Hiff, Hint. reflexivity.
Qed.

(** C9. Once the device is open, the next call clears the non-blocking
    flag (fcntl F_SETFL 0 on the new descriptor).  The sequence stops
    there, with an error and no handle, exactly when the errno of that
    call, converted to int as the code does, is nonzero or its status is
    nonzero: for an errno below 2^31, as the errno numbers of the kernel
    are, exactly when the errno or the status is nonzero.  The error is
    a syscall error carrying the errno, or "Unknown error from
    SYS_FCNTL.".  Otherwise the sequence goes on to the translation and
    the attribute call. *)
Theorem openInternal_clears_nonblocking options h file r1 r2 errno :
  open_result sys h (PortName options)
              (Z.lor (Z.lor os.O_RDWR os.O_NOCTTY) os.O_NONBLOCK) 384
  = inl file ->
  (syscall.Syscall sys syscall.SYS_FCNTL (uintptr file)
                   (uintptr syscall.F_SETFL) (Word (uintptr 0))
                   (h ++ [open_call options])).1 = (r1, r2, errno) ->
  let h2 := h ++ [open_call options; fcntl_call file] in
  let run := openInternal sys options h in
  let stopped :=
    exists err,
      run = ((None, Some err), h2) /\
      ((exists name, err = os.SyscallError name (int errno)) \/
       err = os.NewError "Unknown error from SYS_FCNTL.") in
  (exists later, run.2 = h2 ++ later) /\
  (stopped <-> (int errno <> 0 \/ r1 <> 0)) /\
  (int errno <> 0 ->
   exists name,
     run = ((None, Some (os.SyscallError name (int errno))), h2)) /\
  (int errno = 0 -> r1 <> 0 ->
   run = ((None, Some (os.NewError "Unknown error from SYS_FCNTL.")), h2)) /\
  (int errno = 0 -> r1 = 0 ->
   run = match convertOptions options with
         | (_, Some err) => ((None, Some err), h2)
         | (terminalOptions, None) =>
             let (err, h3) := setTermios sys file terminalOptions h2 in
             match err with
             | Some err => ((None, Some err), h3)
             | None => ((Some file, None), h3)
             end
         end) /\
  (errno < 2 ^ 31 ->
   int errno = errno /\ (stopped <-> (errno <> 0 \/ r1 <> 0))).
Proof.
  intros Hopen Hcall h2 run stopped.
  assert (Hiff : stopped <-> (int errno <> 0 \/ r1 <> 0)).
  { subst stopped run.
    rewrite (openInternal_opened _ _ _ _ _ _ Hopen Hcall). fold h2.
    destruct (decide (int errno = 0)) as [He | He];
      [destruct (decide (r1 = 0)) as [Hr | Hr] |].
    - split; [| intros [? | ?]; contradiction].
      intros (err & Hrun & Herr). exfalso.
      destruct (convertOptions options) as [t [err' |]] eqn:Hconv.
      + apply convertOptions_errors in Hconv as (_ & Hconv).
        injection Hrun as ->.
        destruct Herr as [[name ->] | ->], Hconv as [? | ?]; discriminate.
      + pose proof (setTermios_calls file t h2) as Hcalls.
        destruct (setTermios sys file t h2) as [[err' |] h3];
          simpl in Hcalls; subst h3.
        * injection Hrun as _ Hlen. apply (f_equal length) in Hlen.
          rewrite length_app in Hlen. simpl in Hlen. lia.
        * discriminate.
    - split; [auto |]. intros _. eauto.
    - split; [auto |]. intros _. eauto 6. }
  split; [| split; [exact Hiff |]].
  { subst run. rewrite (openInternal_opened _ _ _ _ _ _ Hopen Hcall).
    fold h2.
    destruct (decide (int errno = 0));
      [destruct (decide (r1 = 0)) |];
      try (exists []; symmetry; apply app_nil_r).
    destruct (convertOptions options) as [t [err |]];
      [exists []; symmetry; apply app_nil_r |].
    pose proof (setTermios_calls file t h2) as Hcalls.
    destruct (setTermios sys file t h2) as [[err |] h3];
      simpl in Hcalls |- *; eauto. }
  split; [| split; [| split]].
  - intros He. subst run.
    rewrite (openInternal_opened _ _ _ _ _ _ Hopen Hcall). fold h2.
    destruct (decide (int errno = 0)); [contradiction | eauto].
  - intros He Hr. subst run.
    rewrite (openInternal_opened _ _ _ _ _ _ Hopen Hcall). fold h2.
    destruct (decide (int errno = 0)); [| contradiction].
    destruct (decide (r1 = 0)); [contradiction | reflexivity].
  - intros He Hr. subst run.
    rewrite (openInternal_opened _ _ _ _ _ _ Hopen Hcall). fold h2.
    destruct (decide (int errno = 0)); [| contradiction].
    destruct (decide (r1 = 0)); [reflexivity | contradiction].
  - intros Hlt.
    pose proof (Syscall_errno _ _ _ _ _ _ _ _ Hcall Hlt) as Hint.
    split; [exact Hint |]. rewrite Hiff, Hint. reflexivity.
Qed.

(** C1, as amended.  If openInternal fails at any step after the device
    has been opened, it returns the error and no handle, and it has made
    no close call: the calls of the run are the open and the flag call on
    the new descriptor, or these and the attribute call, and nothing
    else; none of them closes a descriptor. *)
Theorem openInternal_failure_makes_no_close options h file err :
  open_result sys h (PortName options)
              (Z.lor (Z.lor os.O_RDWR os.O_NOCTTY) os.O_NONBLOCK) 384
  = inl file ->
  (openInternal sys options h).1.2 = Some err ->
  (openInternal sys options h).1 = (None, Some err) /\
  exists calls,
    (openInternal sys options h).2 = h ++ calls /\
    (calls = [open_call options; fcntl_call file] \/
     exists t, calls = [open_call options; fcntl_call file;
                        ioctl_call file (Some t)]) /\
    Forall (fun c => ~ closes_descriptor c) calls.
Proof.
  intros Hfile. fold (open_answer sys options h) in Hfile.
  run_cases options h; simpl; rewrite Hfile in Hopen;
    try discriminate Hopen; try injection Hopen as <-.
  - intros [= ->]. split; [reflexivity |].
    eexists. split; [reflexivity |]. split; [auto |].
    repeat constructor; simpl; [tauto | discriminate].
  - intros [= ->]. split; [reflexivity |].
    eexists. split; [reflexivity |]. split; [auto |].
    repeat constructor; simpl; [tauto | discriminate].
  - intros [= ->]. split; [reflexivity |].
    eexists. split; [reflexivity |]. split; [eauto |].
    repeat constructor; simpl; [tauto | discriminate | discriminate].
  - discriminate.
Qed.

(** C2, as amended.  For every configuration whose BaudRate or DataBits is
    outside its enumerated set, openInternal returns no handle and never
    makes the attribute-set call.  The device open and the flag call come
    first: when both succeed the result is the InvalidOption error of the
    translation, after exactly those two calls. *)
Theorem openInternal_invalid_option options h :
  BaudRate options ∉ baud_rates \/ DataBits options ∉ data_sizes ->
  let run := openInternal sys options h in
  run.1.1 = None /\
  (exists calls, run.2 = h ++ calls /\
                 Forall (fun c => ~ is_set_attributes c) calls) /\
  (forall file r2,
      open_result sys h (PortName options)
                  (Z.lor (Z.lor os.O_RDWR os.O_NOCTTY) os.O_NONBLOCK) 384
      = inl file ->
      (syscall.Syscall sys syscall.SYS_FCNTL (uintptr file)
                       (uintptr syscall.F_SETFL) (Word (uintptr 0))
                       (h ++ [open_call options])).1 = (0, r2, 0) ->
      exists err,
        run = ((None, Some err),
               h ++ [open_call options; fcntl_call file]) /\
        convertOptions options = (None, Some err) /\
        (err = os.NewError "Invalid setting for BaudRate." \/
         err = os.NewError "Invalid setting for DataBits.")).
Proof.
  intros Hbad run. subst run.
  destruct (convertOptions_invalid _ Hbad) as (bad & Hconv & Hkind).
  split; [| split].
  - destruct (openInternal_calls options h)
      as [(e & ->) | [(f & e & ->) | (f & t & Hgood & _)]];
      [reflexivity | reflexivity | congruence].
  - destruct (openInternal_calls options h)
      as [(e & ->) | [(f & e & ->) | (f & t & Hgood & _)]];
      [| | congruence].
    + eexists. split; [reflexivity |].
      repeat constructor; simpl; tauto.
    + eexists. split; [reflexivity |].
      unfold open_call, fcntl_call.
      repeat constructor; simpl; [tauto |].
      intros [Htrap _]. discriminate.
  - intros file r2 Hopen Hcall.
    rewrite (openInternal_opened _ _ _ _ _ _ Hopen Hcall).
    change (int 0) with 0. rewrite Hconv. simpl. eauto.
Qed.

(** ** Further properties of the open sequence *)

(** X6. The run consists of the open call alone exactly when the open
    fails; the error of os.OpenFile is then returned unchanged, with no
    handle, whatever the BaudRate and DataBits are. *)
Theorem openInternal_open_error options h :
  ((openInternal sys options h).2 = h ++ [open_call options]
   <-> exists err, open_answer sys options h = inr err) /\
  (forall err, open_answer sys options h = inr err ->
               (openInternal sys options h).1 = (None, Some err)).
Proof.
  run_cases options h; simpl; rewrite Hopen.
  1: { split; [split; eauto |]. intros e [= <-]. reflexivity. }
  all: split; [split |].
  all: first [ intros H; exfalso; exact (calls_longer _ _ _ _ H)
             | intros (e & He); discriminate He
             | intros e He; discriminate He ].
Qed.

(** X7. Once the device is open, the flag call on the new descriptor always
    follows.  The attribute call on that descriptor, carrying the record of
    the translation, is made after it exactly when the code takes the flag
    call as a success (errno zero as an int, status zero) and the
    configuration is accepted; no other call is made and the earlier
    history is kept.  For an errno below 2^31 the flag call is taken as a
    success exactly when errno and status are zero. *)
Theorem openInternal_call_order options h file :
  open_answer sys options h = inl file ->
  let o := open_call options in
  let f := fcntl_call file in
  ((exists t,
       reports_success (fcntl_answer sys options h file) /\
       convertOptions options = (Some t, None) /\
       (openInternal sys options h).2
       = h ++ [o; f; ioctl_call file (Some t)])
   \/
   ((~ reports_success (fcntl_answer sys options h file) \/
     (convertOptions options).1 = None) /\
    (openInternal sys options h).2 = h ++ [o; f])) /\
  (forall r1 r2 errno,
      fcntl_answer sys options h file = (r1, r2, errno) ->
      errno < 2 ^ 31 ->
      reports_success (fcntl_answer sys options h file)
      <-> errno = 0 /\ r1 = 0).
Proof.
  intros Hfile o f. subst o f. split.
  - run_cases options h; simpl; rewrite Hfile in Hopen;
      try discriminate Hopen; injection Hopen as <-.
    + right. auto.
    + right. split; [| reflexivity]. right. rewrite Hconv. reflexivity.
    + left. eauto.
    + left. eauto.
  - intros r1 r2 errno Hans Hlt. rewrite Hans.
    exact (reports_success_small _ _ _ _ _ _ _ _ Hans Hlt).
Qed.

(** X8. A handle is returned exactly when the open succeeds, the code takes
    the flag call and the attribute call as successes (errno zero as an
    int, status zero), and the configuration is accepted; the handle is
    the descriptor that was opened.  For an errno below 2^31 the attribute
    call is taken as a success exactly when errno and status are zero. *)
Theorem openInternal_returns_handle options h file :
  ((openInternal sys options h).1.1 = Some file <->
   open_answer sys options h = inl file /\
   reports_success (fcntl_answer sys options h file) /\
   (exists t, convertOptions options = (Some t, None) /\
              reports_success (ioctl_answer sys options h file t))) /\
  (forall t r1 r2 errno,
      ioctl_answer sys options h file t = (r1, r2, errno) ->
      errno < 2 ^ 31 ->
      reports_success (ioctl_answer sys options h file t)
      <-> errno = 0 /\ r1 = 0).
Proof.
  split; [split |].
  - run_cases options h; simpl; try discriminate.
    intros [= <-]. eauto 10.
  - intros (Hopen & Hfcntl & t & Hconv & Hioctl).
    destruct (ioctl_answer sys options h file t) as [[r1' r2'] errno']
      eqn:Hans.
    rewrite (openInternal_configured _ _ _ _ _ _ _
               Hopen Hfcntl Hconv Hans).
    destruct Hioctl as [He ->].
    destruct (decide (int errno' = 0)); [| contradiction].
    reflexivity.
  - intros t r1 r2 errno Hans Hlt. rewrite Hans.
    exact (reports_success_small _ _ _ _ _ _ _ _ Hans Hlt).
Qed.

(** X9. When the open succeeds, the flag call is taken as a success and
    the configuration is accepted, a failing attribute call ends the run
    after three calls with no handle: with a "SYS_IOCTL" error carrying
    the errno when the errno, converted to int, is nonzero; with "Unknown
    error from SYS_IOCTL." when it is zero and the status is not.  An
    errno below 2^31 is carried unchanged. *)
Theorem openInternal_attribute_failure options h file t r1' r2' errno' :
  open_answer sys options h = inl file ->
  reports_success (fcntl_answer sys options h file) ->
  convertOptions options = (Some t, None) ->
  ioctl_answer sys options h file t = (r1', r2', errno') ->
  let calls := [open_call options; fcntl_call file;
                ioctl_call file (Some t)] in
  (int errno' <> 0 ->
   openInternal sys options h
   = ((None, Some (os.SyscallError "SYS_IOCTL" (int errno'))), h ++ calls))
  /\
  (int errno' = 0 -> r1' <> 0 ->
   openInternal sys options h
   = ((None, Some (os.NewError "Unknown error from SYS_IOCTL.")),
      h ++ calls))
  /\
  (errno' < 2 ^ 31 -> int errno' = errno').
Proof.
  intros Hopen Hfcntl Hconv Hioctl calls. subst calls.
  rewrite (openInternal_configured _ _ _ _ _ _ _
             Hopen Hfcntl Hconv Hioctl).
  split; [| split].
  - intros He.
    destruct (decide (int errno' = 0)); [contradiction | reflexivity].
  - intros He Hr.
    destruct (decide (int errno' = 0)); [| contradiction].
    destruct (decide (r1' = 0)); [contradiction | reflexivity].
  - exact (Syscall_errno _ _ _ _ _ _ _ _ Hioctl).
Qed.

(** X10. Every run ends with exactly one of a handle and an error: either
    the opened descriptor and nil, or nil and an error. *)
Theorem openInternal_handle_xor_error options h :
  (exists file, open_answer sys options h = inl file /\
                (openInternal sys options h).1 = (Some file, None)) \/
  (exists err, (openInternal sys options h).1 = (None, Some err)).
Proof.
  run_cases options h; simpl; eauto.
Qed.

End OpenSequence.

(** X11. The error of a flag call whose errno, converted to int, is
    nonzero is labelled "SYS_IOCTL", like the error of the attribute call:
    a run stopped by the flag call and a run stopped by the attribute call
    with the same errno return equal results. *)
Theorem openInternal_errno_label_shared
    (sys1 sys2 : System) (options : OpenOptions) (h1 h2 : list call)
    (file1 file2 : Z) (t : termios) (errno r1 r2 r1'' r2'' : Z) :
  int errno <> 0 ->
  open_answer sys1 options h1 = inl file1 ->
  fcntl_answer sys1 options h1 file1 = (r1, r2, errno) ->
  open_answer sys2 options h2 = inl file2 ->
  reports_success (fcntl_answer sys2 options h2 file2) ->
  convertOptions options = (Some t, None) ->
  ioctl_answer sys2 options h2 file2 t = (r1'', r2'', errno) ->
  (openInternal sys1 options h1).1
  = (None, Some (os.SyscallError "SYS_IOCTL" (int errno))) /\
  (openInternal sys1 options h1).1 = (openInternal sys2 options h2).1.
Proof.
  intros He Hopen1 Hfcntl1 Hopen2 Hfcntl2 Hconv Hioctl2.
  rewrite (openInternal_opened sys1 _ _ _ _ _ _ Hopen1 Hfcntl1).
  rewrite (openInternal_configured sys2 _ _ _ _ _ _ _
             Hopen2 Hfcntl2 Hconv Hioctl2).
  destruct (decide (int errno = 0)); [contradiction |]. split; reflexivity.
Qed.

(** ** Sample runs *)

Lemma setTermios_result_witness :
  (setTermios ioctl_refused 3 (Some (translated 9600 8)) []).1
  = Some (os.SyscallError "SYS_IOCTL" (int 25)).
Proof.
  pose proof (setTermios_result ioctl_refused 3 (Some (translated 9600 8))
                [] (2 ^ 64 - 1) 0 25 eq_refl) as H.
  cbv zeta in H. destruct H as (_ & H & _).
  apply H. discriminate.
Defined.

Lemma openInternal_clears_nonblocking_witness :
  exists name,
    openInternal fcntl_refused usb_9600_8 []
    = ((None, Some (os.SyscallError name (int 9))),
       [] ++ [open_call usb_9600_8; fcntl_call 3]).
Proof.
  pose proof (openInternal_clears_nonblocking fcntl_refused usb_9600_8 [] 3
                (2 ^ 64 - 1) 0 9 eq_refl eq_refl) as H.
  cbv zeta in H. destruct H as (_ & _ & H & _).
  apply H. discriminate.
Defined.

Lemma openInternal_failure_makes_no_close_witness :
  (openInternal ioctl_refused usb_9600_8 []).1
  = (None, Some (os.SyscallError "SYS_IOCTL" 25)) /\
  exists calls,
    (openInternal ioctl_refused usb_9600_8 []).2 = [] ++ calls /\
    (calls = [open_call usb_9600_8; fcntl_call 3] \/
     exists t, calls = [open_call usb_9600_8; fcntl_call 3;
                        ioctl_call 3 (Some t)]) /\
    Forall (fun c => ~ closes_descriptor c) calls.
Proof.
  apply (openInternal_failure_makes_no_close ioctl_refused usb_9600_8 [] 3);
    reflexivity.
Defined.

Lemma openInternal_invalid_option_witness :
  (openInternal obliging usb_9601_8 []).1.1 = None /\
  exists calls, (openInternal obliging usb_9601_8 []).2 = [] ++ calls /\
                Forall (fun c => ~ is_set_attributes c) calls.
Proof.
  assert (Hbad : BaudRate usb_9601_8 ∉ baud_rates \/
                 DataBits usb_9601_8 ∉ data_sizes).
  { left. intros H. apply (bool_decide_pack _) in H. vm_compute in H.
    exact H. }
  pose proof (openInternal_invalid_option obliging usb_9601_8 [] Hbad) as H.
  cbv zeta in H. destruct H as (Hnone & Hcalls & _).
  split; [exact Hnone | exact Hcalls].
Defined.

(** C1 as stated fails: the device opens as descriptor 3, the flag call is
    refused, the error is returned, and the run consists of the open and
    the flag call alone; descriptor 3 was not closed. *)
Lemma openInternal_leaves_descriptor_open :
  open_result fcntl_refused [] (PortName usb_9600_8)
              (Z.lor (Z.lor os.O_RDWR os.O_NOCTTY) os.O_NONBLOCK) 384
  = inl 3 /\
  openInternal fcntl_refused usb_9600_8 []
  = ((None, Some (os.SyscallError "SYS_IOCTL" 9)),
     [open_call usb_9600_8; fcntl_call 3]) /\
  Close 3 ∉ (openInternal fcntl_refused usb_9600_8 []).2.
Proof.
  split; [reflexivity |]. split; [reflexivity |].
  change (Close 3 ∉ [open_call usb_9600_8; fcntl_call 3]).
  rewrite !not_elem_of_cons.
  repeat split; first [discriminate | apply not_elem_of_nil].
Qed.

(** C2 as stated fails: a configuration with BaudRate 9601 is rejected only
    after the device has been opened and the flag call made. *)
Lemma openInternal_validates_after_open :
  (BaudRate usb_9601_8 ∉ baud_rates) /\
  openInternal obliging usb_9601_8 []
  = ((None, Some (os.NewError "Invalid setting for BaudRate.")),
     [open_call usb_9601_8; fcntl_call 3]) /\
  (openInternal obliging usb_9601_8 []).2 <> [].
Proof.
  split; [| split; [reflexivity | discriminate]].
  intros H. apply (bool_decide_pack _) in H. vm_compute in H. exact H.
Qed.

(** ** Further sample runs *)

Lemma openInternal_open_error_witness :
  (openInternal open_refused usb_9601_9 []).1
  = (None, Some (os.PathError "open" "/dev/tty.usbserial" 2)).
Proof.
  apply (proj2 (openInternal_open_error open_refused usb_9601_9 [])).
  reflexivity.
Defined.

Lemma openInternal_call_order_witness :
  (exists t,
      reports_success (fcntl_answer obliging usb_9600_8 [] 3) /\
      convertOptions usb_9600_8 = (Some t, None) /\
      (openInternal obliging usb_9600_8 []).2
      = [] ++ [open_call usb_9600_8; fcntl_call 3; ioctl_call 3 (Some t)])
  \/
  ((~ reports_success (fcntl_answer obliging usb_9600_8 [] 3) \/
    (convertOptions usb_9600_8).1 = None) /\
   (openInternal obliging usb_9600_8 []).2
   = [] ++ [open_call usb_9600_8; fcntl_call 3]).
Proof.
  pose proof (openInternal_call_order obliging usb_9600_8 [] 3 eq_refl)
    as H.
  cbv zeta in H. exact (proj1 H).
Defined.

Lemma openInternal_returns_handle_witness :
  (openInternal obliging usb_9600_8 []).1.1 = Some 3.
Proof.
  apply (proj2 (proj1 (openInternal_returns_handle obliging usb_9600_8
                         [] 3))).
  split; [reflexivity |]. split; [split; reflexivity |].
  exists (translated 9600 8). split; [reflexivity |].
  split; reflexivity.
Defined.

Lemma openInternal_attribute_failure_witness :
  openInternal ioctl_odd usb_9600_8 []
  = ((None, Some (os.NewError "Unknown error from SYS_IOCTL.")),
     [] ++ [open_call usb_9600_8; fcntl_call 3;
            ioctl_call 3 (Some (translated 9600 8))]).
Proof.
  pose proof (openInternal_attribute_failure ioctl_odd usb_9600_8 [] 3
                (translated 9600 8) 1 0 0 eq_refl) as H.
  cbv zeta in H.
  apply H; first [reflexivity | discriminate | split; reflexivity].
Defined.

Lemma openInternal_errno_label_shared_witness :
  (openInternal fcntl_refused usb_9600_8 []).1
  = (None, Some (os.SyscallError "SYS_IOCTL" (int 9))) /\
  (openInternal fcntl_refused usb_9600_8 []).1
  = (openInternal ioctl_ebadf usb_9600_8 []).1.
Proof.
  apply (openInternal_errno_label_shared fcntl_refused ioctl_ebadf
           usb_9600_8 [] [] 3 3 (translated 9600 8) 9
           (2 ^ 64 - 1) 0 (2 ^ 64 - 1) 0);
    first [reflexivity | discriminate | split; reflexivity].
Defined.
